(** * scripts/add_verification_dates.py: the batch field updater

    The script walks two fixed directories, loads every [*.yml] file with
    [yaml.safe_load], stamps [verified_date] on every mapping found in the
    record sequence, and dumps the document back over the file.

    The loaded document is a graph of Python objects: YAML anchors and
    aliases make [safe_load] return the same list or dict object at several
    places, and the loop mutates dicts in place.  The model therefore keeps
    an explicit object store ([heap]) addressed by [loc], and a [value] is
    either an immutable scalar or the address of a list or dict.

    [yaml.safe_load], [yaml.dump] and the text codec of [open] belong to
    PyYAML and to Python, not to this repository: they are the operations of
    the [Library] class, and every definition of the script is parametric in
    them. *)

From stdpp Require Import gmap strings list fin_maps pretty.
From Stdlib Require Import ZArith Ascii String.
From Stdlib.Strings Require Import Byte.

Local Open Scope string_scope.
Local Open Scope list_scope.

(** ** Data: what [yaml.safe_load] can return *)

(** Immutable scalars.  A float is kept as its literal text together with the
    only observation the script makes of a number, whether it is zero; a date
    or datetime as its text.  The collection tags [!!set], [!!omap] and
    [!!pairs] have no constructor of their own. *)
Inductive scalar :=
  | SNull
  | SBool (b : bool)
  | SInt (n : Z)
  | SFloat (zero : bool) (repr : string)
  | SStr (s : string)
  | SBinary (bs : list byte)
  | STimestamp (repr : string).

Definition loc := nat.

Inductive value :=
  | VScalar (a : scalar)
  | VRef (l : loc).

(** A dict keeps its entries in insertion order; keys are hashable, hence
    scalars. *)
Inductive object :=
  | OList (xs : list value)
  | ODict (d : list (scalar * value)).

Abbreviation heap := (gmap loc object).

(** ** Python primitives used by the script *)

Inductive exn :=
  | AttributeError
  | TypeError
  | YAMLError
  | UnicodeError
  | OSError.

Inductive result (A : Type) :=
  | Ok (a : A)
  | Raise (e : exn).
Arguments Ok {A} a.
Arguments Raise {A} e.

(** [key == k] for a [str] literal [key]: a str only equals a str. *)
Definition key_is (key : string) (k : scalar) : bool :=
  match k with
  | SStr s => String.eqb key s
  | _ => false
  end.

(** [d.get(key)] *)
Fixpoint dict_get (key : string) (d : list (scalar * value)) : option value :=
  match d with
  | [] => None
  | (k, v) :: rest => if key_is key k then Some v else dict_get key rest
  end.

(** [d[key] = v]: an existing entry keeps its place, a new one goes last. *)
Fixpoint dict_set (key : string) (v : value) (d : list (scalar * value))
  : list (scalar * value) :=
  match d with
  | [] => [(SStr key, v)]
  | (k, w) :: rest =>
      if key_is key k then (k, v) :: rest else (k, w) :: dict_set key v rest
  end.

Definition dict_keys (d : list (scalar * value)) : list scalar := map fst d.

(** [bool(a)] on a scalar. *)
Definition scalar_truthy (a : scalar) : bool :=
  match a with
  | SNull => false
  | SBool b => b
  | SInt n => negb (Z.eqb n 0)
  | SFloat zero _ => negb zero
  | SStr s => negb (String.eqb s "")
  | SBinary bs => match bs with [] => false | _ => true end
  | STimestamp _ => true
  end.

(** [bool(v)]: containers are true when non-empty.  [safe_load] never returns
    an address outside its store; the model reads one as an absent value. *)
Definition truthy (h : heap) (v : value) : bool :=
  match v with
  | VScalar a => scalar_truthy a
  | VRef l =>
      match h !! l with
      | Some (OList xs) => match xs with [] => false | _ => true end
      | Some (ODict d) => match d with [] => false | _ => true end
      | None => false
      end
  end.

(** [isinstance(v, list)] and [isinstance(v, dict)] *)
Definition is_list (h : heap) (v : value) : bool :=
  match v with
  | VRef l => match h !! l with Some (OList _) => true | _ => false end
  | VScalar _ => false
  end.

Definition is_dict (h : heap) (v : value) : bool :=
  match v with
  | VRef l => match h !! l with Some (ODict _) => true | _ => false end
  | VScalar _ => false
  end.

Fixpoint str_chars (s : string) : list value :=
  match s with
  | EmptyString => []
  | String c rest => VScalar (SStr (String c EmptyString)) :: str_chars rest
  end.

Definition byte_value (b : byte) : value :=
  VScalar (SInt (Z.of_N (Byte.to_N b))).

(** [iter(v)], run to the end: the elements a [for] loop over [v] visits.  A
    list yields its elements, a dict its keys, a str its characters, bytes
    their integers; anything else is not iterable. *)
Definition py_iter (h : heap) (v : value) : result (list value) :=
  match v with
  | VScalar (SStr s) => Ok (str_chars s)
  | VScalar (SBinary bs) => Ok (map byte_value bs)
  | VScalar _ => Raise TypeError
  | VRef l =>
      match h !! l with
      | Some (OList xs) => Ok xs
      | Some (ODict d) => Ok (map (fun kv => VScalar (fst kv)) d)
      | None => Raise TypeError
      end
  end.

(** ** The library boundary *)

Record dump_options := {
  default_flow_style : bool;
  allow_unicode : bool;
  sort_keys : bool
}.

Class Library := {
  (** [yaml.safe_load(content)]: the object store it builds and the root *)
  safe_load : string -> result (heap * value);
  (** the text [yaml.dump(data, f, **options)] writes to [f] *)
  yaml_dump : dump_options -> heap -> value -> string;
  (** [open(..., encoding=enc)]: bytes to text on read, text to bytes on write *)
  text_decode : string -> list byte -> result string;
  text_encode : string -> string -> list byte
}.

(** ** The script *)

Definition docstring : string :=
  "Add verification_date: 2025-12-17 to all programs".

Definition today : string := "2025-12-16".

Definition data_dirs : list string :=
  ["_data/programs"; "_data/college-university"].

Definition file_encoding : string := "utf-8".

(** What [print] receives: the file header, one line per stamped record with
    the value of [program.get('name', 'Unknown')], and the final count. *)
Inductive event :=
  | EFile (yaml_file : string)
  | ERecord (name : value)
  | ETotal (n : nat).

(** [programs = data if isinstance(data, list) else data.get('programs', [])],
    followed by the [iter] of the [for] statement.  [data.get] exists on
    dicts only. *)
Definition programs_items (h : heap) (data : value) : result (list value) :=
  if is_list h data then py_iter h data
  else
    match data with
    | VRef l =>
        match h !! l with
        | Some (ODict d) =>
            match dict_get "programs" d with
            | Some programs => py_iter h programs
            | None => Ok []
            end
        | _ => Raise AttributeError
        end
    | VScalar _ => Raise AttributeError
    end.

(** The state of the record loop: the object store, [total], and the output. *)
Definition loop_state : Type := heap * nat * list event.

(** One iteration of [for program in programs]. *)
Definition stamp_program (st : loop_state) (program : value) : loop_state :=
  let '(h, total, out) := st in
  match program with
  | VRef l =>
      match h !! l with
      | Some (ODict d) =>
          let d' := dict_set "verified_date" (VScalar (SStr today)) d in
          (<[l := ODict d']> h,
           S total,
           out ++ [ERecord (default (VScalar (SStr "Unknown")) (dict_get "name" d'))])
      | _ => st
      end
  | VScalar _ => st
  end.

Definition update_programs (programs : list value) (st : loop_state)
  : loop_state :=
  fold_left stamp_program programs st.

(** Lines 31-37 on a loaded document. *)
Definition update_document (h : heap) (data : value) (total : nat)
  (out : list event) : result loop_state :=
  match programs_items h data with
  | Ok programs => Ok (update_programs programs (h, total, out))
  | Raise e => Raise e
  end.

Definition script_dump_options : dump_options :=
  {| default_flow_style := false; allow_unicode := true; sort_keys := false |}.

(** Lines 40-44: both branches of the [isinstance] test make the same call. *)
Definition dump_document `{Library} (h : heap) (data : value) : string :=
  if is_list h data
  then yaml_dump script_dump_options h data
  else yaml_dump script_dump_options h data.

(** The world of one run: file contents, the running total, and what was
    printed. *)
Record state := {
  files : gmap string (list byte);
  total : nat;
  out : list event
}.

(** A run either reaches the end of a statement or is cut by an exception,
    which nothing in the script catches; the state reached so far stays. *)
Inductive outcome :=
  | Done (s : state)
  | Aborted (e : exn) (s : state).

Definition state_of (o : outcome) : state :=
  match o with Done s => s | Aborted _ s => s end.

Definition print (e : event) (s : state) : state :=
  {| files := files s; total := total s; out := out s ++ [e] |}.

(** The body of [for yaml_file in data_dir.glob("*.yml")]. *)
Definition process_file `{Library} (yaml_file : string) (s : state) : outcome :=
  let s := print (EFile yaml_file) s in
  match files s !! yaml_file with
  | None => Aborted OSError s
  | Some raw =>
      match text_decode file_encoding raw with
      | Raise e => Aborted e s
      | Ok content =>
          match safe_load content with
          | Raise e => Aborted e s
          | Ok (h, data) =>
              if negb (truthy h data) then Done s
              else
                match update_document h data (total s) (out s) with
                | Raise e => Aborted e s
                | Ok (h', total', out') =>
                    Done {| files := <[yaml_file :=
                                text_encode file_encoding (dump_document h' data)]>
                                (files s);
                            total := total';
                            out := out' |}
                end
          end
      end
  end.

Fixpoint process_files `{Library} (yaml_files : list string) (s : state)
  : outcome :=
  match yaml_files with
  | [] => Done s
  | f :: rest =>
      match process_file f s with
      | Done s' => process_files rest s'
      | Aborted e s' => Aborted e s'
      end
  end.

(** The directory table: an existing directory is mapped to what
    [glob("*.yml")] yields in it.  Writing a file back changes no name, so
    the table is the same throughout the run. *)
Abbreviation dir_table := (gmap string (list string)).

(** The body of [for data_dir in data_dirs]. *)
Definition process_dir `{Library} (tree : dir_table) (data_dir : string)
  (s : state) : outcome :=
  match tree !! data_dir with
  | None => Done s
  | Some yaml_files => process_files yaml_files s
  end.

Fixpoint process_dirs `{Library} (tree : dir_table) (dirs : list string)
  (s : state) : outcome :=
  match dirs with
  | [] => Done s
  | d :: rest =>
      match process_dir tree d s with
      | Done s' => process_dirs tree rest s'
      | Aborted e s' => Aborted e s'
      end
  end.

(** The whole script, from [total = 0] to the final [print]. *)
Definition run `{Library} (tree : dir_table) (fs : gmap string (list byte))
  : outcome :=
  match process_dirs tree data_dirs {| files := fs; total := 0; out := [] |} with
  | Done s => Done (print (ETotal (total s)) s)
  | Aborted e s => Aborted e s
  end.

(** ** Observations used by the statements *)

#[global] Instance byte_eq_decision : EqDecision byte := Byte.byte_eq_dec.
#[global] Instance scalar_eq_decision : EqDecision scalar.
Proof. solve_decision. Defined.
#[global] Instance value_eq_decision : EqDecision value.
Proof. solve_decision. Defined.
#[global] Instance object_eq_decision : EqDecision object.
Proof. solve_decision. Defined.

Definition heap_of (st : loop_state) : heap := st.1.1.
Definition total_of (st : loop_state) : nat := st.1.2.
Definition out_of (st : loop_state) : list event := st.2.

(** What the loop does to one object: a dict gets the date, a list is not
    touched. *)
Definition stamp_object (o : object) : object :=
  match o with
  | ODict d => ODict (dict_set "verified_date" (VScalar (SStr today)) d)
  | OList xs => OList xs
  end.

(** The number of elements the loop counts. *)
Definition record_count (h : heap) (programs : list value) : nat :=
  List.length (List.filter (is_dict h) programs).

(** [program.get('verified_date')] for a record, [None] for anything else. *)
Definition verified_date_of (h : heap) (program : value) : option value :=
  match program with
  | VRef l =>
      match h !! l with
      | Some (ODict d) => dict_get "verified_date" d
      | _ => None
      end
  | VScalar _ => None
  end.

(** The entries of a dict other than [verified_date], in order. *)
Definition other_fields (d : list (scalar * value)) : list (scalar * value) :=
  List.filter (fun kv => negb (key_is "verified_date" (fst kv))) d.


(** The files a run visits, in order: the listing of every data directory
    that exists. *)
Definition listed (tree : dir_table) (dirs : list string) : list string :=
  flat_map (fun d => default [] (tree !! d)) dirs.




(** ** A small instance of the library

    A miniature block-style emitter for documents of depth two and a loader
    given by a table of texts, enough to run the script on concrete files.
    It stands for PyYAML on those files only. *)
Module Example.

Definition nl : string := String "010"%char EmptyString.

Definition starts_with_digit (s : string) : bool :=
  match s with
  | String c _ => (Nat.leb 48 (Ascii.nat_of_ascii c) && Nat.leb (Ascii.nat_of_ascii c) 57)%bool
  | EmptyString => false
  end.

Definition emit_scalar (a : scalar) : string :=
  match a with
  | SNull => "null"
  | SBool true => "true"
  | SBool false => "false"
  | SInt n => pretty n
  | SFloat _ repr => repr
  | SStr s => if starts_with_digit s then ("'" ++ s ++ "'")%string else s
  | SBinary _ => "!!binary"
  | STimestamp repr => repr
  end.

Definition emit_inline (h : heap) (v : value) : string :=
  match v with
  | VScalar a => emit_scalar a
  | VRef l =>
      match h !! l with
      | Some (OList []) => "[]"
      | Some (ODict []) => "{}"
      | _ => "*id"
      end
  end.

Definition emit_field (h : heap) (kv : scalar * value) : string :=
  (emit_scalar (fst kv) ++ ": " ++ emit_inline h (snd kv) ++ nl)%string.

Fixpoint emit_fields (h : heap) (indent : string) (d : list (scalar * value))
  : string :=
  match d with
  | [] => ""
  | [kv] => emit_field h kv
  | kv :: rest => (emit_field h kv ++ indent ++ emit_fields h indent rest)%string
  end.

Definition emit_item (h : heap) (v : value) : string :=
  match v with
  | VRef l =>
      match h !! l with
      | Some (ODict (kv :: d)) => ("- " ++ emit_fields h "  " (kv :: d))%string
      | _ => ("- " ++ emit_inline h v ++ nl)%string
      end
  | VScalar _ => ("- " ++ emit_inline h v ++ nl)%string
  end.

Definition emit_items (h : heap) (xs : list value) : string :=
  String.concat "" (map (emit_item h) xs).

Definition emit_top (h : heap) (kv : scalar * value) : string :=
  match snd kv with
  | VRef l =>
      match h !! l with
      | Some (OList (x :: xs)) =>
          (emit_scalar (fst kv) ++ ":" ++ nl ++ emit_items h (x :: xs))%string
      | _ => emit_field h kv
      end
  | VScalar _ => emit_field h kv
  end.

Definition emit (_ : dump_options) (h : heap) (v : value) : string :=
  match v with
  | VScalar a => (emit_scalar a ++ nl)%string
  | VRef l =>
      match h !! l with
      | Some (OList xs) => emit_items h xs
      | Some (ODict d) => String.concat "" (map (emit_top h) d)
      | None => ""
      end
  end.

Definition str (s : string) : value := VScalar (SStr s).

(** The worked example: two records, [Alpha] and [Beta]. *)
Definition alpha_beta_text : string :=
  ("- name: Alpha" ++ nl ++ "- name: Beta" ++ nl)%string.

Definition alpha_beta : heap :=
  {[ 1 := OList [VRef 2; VRef 3];
     2 := ODict [(SStr "name", str "Alpha")];
     3 := ODict [(SStr "name", str "Beta")] ]}.

Definition alpha_beta_stamped_text : string :=
  ("- name: Alpha" ++ nl ++ "  verified_date: '2025-12-16'" ++ nl ++
   "- name: Beta" ++ nl ++ "  verified_date: '2025-12-16'" ++ nl)%string.

Definition alpha_beta_stamped : heap :=
  {[ 1 := OList [VRef 2; VRef 3];
     2 := ODict [(SStr "name", str "Alpha");
                          (SStr "verified_date", str "2025-12-16")];
     3 := ODict [(SStr "name", str "Beta");
                          (SStr "verified_date", str "2025-12-16")] ]}.

(** A sequence with a record between two elements that are not mappings;
    the record carries an older date and a field after it. *)
Definition mixed_text : string :=
  ("- 7" ++ nl ++ "- verified_date: '2024-01-01'" ++ nl ++ "  name: Gamma" ++ nl
   ++ "- note" ++ nl)%string.

Definition mixed : heap :=
  {[ 1 := OList [VScalar (SInt 7%Z); VRef 2; str "note"];
     2 := ODict [(SStr "verified_date", str "2024-01-01");
                          (SStr "name", str "Gamma")] ]}.

(** A mapping-form document with one record under [programs]. *)
Definition wrapped_text : string :=
  ("title: Listing" ++ nl ++ "programs:" ++ nl ++ "- name: Delta" ++ nl)%string.

Definition wrapped : heap :=
  {[ 1 := ODict [(SStr "title", str "Listing");
                          (SStr "programs", VRef 2)];
     2 := OList [VRef 3];
     3 := ODict [(SStr "name", str "Delta")] ]}.

(** A mapping with no [programs] key. *)
Definition plain_text : string := ("title: Listing" ++ nl)%string.

Definition plain : heap :=
  {[ 1 := ODict [(SStr "title", str "Listing")] ]}.

(** A mapping whose [programs] key has no value. *)
Definition null_programs_text : string := ("programs:" ++ nl)%string.

Definition null_programs : heap :=
  {[ 1 := ODict [(SStr "programs", VScalar SNull)] ]}.

Definition table : list (string * (heap * value)) :=
  [ ("", (∅, VScalar SNull));
    (alpha_beta_text, (alpha_beta, VRef 1));
    (alpha_beta_stamped_text, (alpha_beta_stamped, VRef 1));
    (mixed_text, (mixed, VRef 1));
    (wrapped_text, (wrapped, VRef 1));
    (plain_text, (plain, VRef 1));
    (null_programs_text, (null_programs, VRef 1)) ].

Fixpoint load_from (t : list (string * (heap * value))) (content : string)
  : result (heap * value) :=
  match t with
  | [] => Raise YAMLError
  | (text, doc) :: rest =>
      if String.eqb text content then Ok doc else load_from rest content
  end.

#[local] Instance library : Library := {
  safe_load := load_from table;
  yaml_dump := emit;
  text_decode := fun _ raw => Ok (string_of_list_byte raw);
  text_encode := fun _ text => list_byte_of_string text
}.

Definition on_disk (text : string) : list byte := list_byte_of_string text.

Definition programs_dir : string := "_data/programs".
Definition college_dir : string := "_data/college-university".

Definition start (path text : string) : state :=
  {| files := {[ path := on_disk text ]}; total := 0; out := [] |}.

(** A sequence in which an anchored record occurs a second time through an
    alias and a third time inside a list: one dict object, three references. *)
Definition shared : heap :=
  {[ 1 := OList [VRef 2; VRef 2; VRef 3];
     2 := ODict [(SStr "name", str "Epsilon")];
     3 := OList [VRef 2] ]}.

(** Files and directory tables for the runs below. *)
Definition a_yml : string := "_data/programs/a.yml".

Definition one_file_tree : dir_table := {[ programs_dir := [a_yml] ]}.

Definition empty_yml : string := "_data/programs/empty.yml".

Definition two_file_tree : dir_table :=
  {[ programs_dir := [empty_yml; a_yml] ]}.

Definition two_files : gmap string (list byte) :=
  {[ empty_yml := on_disk ""; a_yml := on_disk alpha_beta_text ]}.

Definition plain_yml : string := "_data/programs/plain.yml".

Definition null_yml : string := "_data/programs/null.yml".

End Example.

(** ** Further observations: the printed lines and the error cases *)

(** [program.get('name', 'Unknown')] for a record of the store [h]. *)
Definition name_of (h : heap) (program : value) : value :=
  match program with
  | VRef l =>
      match h !! l with
      | Some (ODict d) => default (VScalar (SStr "Unknown")) (dict_get "name" d)
      | _ => VScalar (SStr "Unknown")
      end
  | VScalar _ => VScalar (SStr "Unknown")
  end.

Definition is_file_line (e : event) : bool :=
  match e with EFile _ => true | _ => false end.

Definition is_record_line (e : event) : bool :=
  match e with ERecord _ => true | _ => false end.

Definition is_total_line (e : event) : bool :=
  match e with ETotal _ => true | _ => false end.

Definition file_lines (o : list event) : nat :=
  List.length (List.filter is_file_line o).

Definition record_lines (o : list event) : nat :=
  List.length (List.filter is_record_line o).

Definition total_lines (o : list event) : nat :=
  List.length (List.filter is_total_line o).

(** More documents. *)
Module Cases.

(** A mapping whose [programs] value is a str, not a sequence. *)
Definition text_programs : heap :=
  {[ 1 := ODict [(SStr "title", Example.str "Listing");
                 (SStr "programs", Example.str "none yet")] ]}.

(** A record with no [name], and a record that has [verified_date] between
    two other fields. *)
Definition nameless : heap :=
  {[ 1 := OList [VRef 2; VRef 3];
     2 := ODict [(SStr "id", VScalar (SInt 4%Z))];
     3 := ODict [(SStr "name", Example.str "Zeta");
                 (SStr "verified_date", Example.str "2024-01-01");
                 (SStr "city", Example.str "Oakland")] ]}.

(** Three files: one with two records, one whose [programs] has no value,
    one with no [programs] key. *)
Definition three_files : gmap string (list byte) :=
  {[ Example.a_yml := Example.on_disk Example.alpha_beta_text;
     Example.null_yml := Example.on_disk Example.null_programs_text;
     Example.plain_yml := Example.on_disk Example.plain_text ]}.

(** Both data directories exist; the first lists the file that raises. *)
Definition two_dir_tree : dir_table :=
  {[ Example.programs_dir := [Example.null_yml];
     Example.college_dir := [Example.a_yml] ]}.

End Cases.

(** ** The file system with links and permissions

    [open] follows symbolic links, so two paths can lead to one file, and it
    can be refused.  Here the [files] of a state are keyed by the file
    itself; [target] gives the file a path leads to when it can be opened
    for reading, and [can_write] tells whether opening that file for writing
    is granted.  Neither changes during a run: writing a file back renames
    nothing and changes no permission.  With every path its own file and
    every write granted this is the visit defined above. *)
Record file_system := {
  target : string -> option string;
  can_write : string -> bool
}.

Definition plain_files : file_system :=
  {| target := Some; can_write := fun _ => true |}.

(** The body of [for yaml_file in data_dir.glob("*.yml")].  A refused
    [open(yaml_file, 'w')] raises at line 40, after the loop has printed its
    lines and advanced [total], and before the file is truncated. *)
Definition process_file_on `{Library} (fsys : file_system) (yaml_file : string)
  (s : state) : outcome :=
  let s := print (EFile yaml_file) s in
  match target fsys yaml_file with
  | None => Aborted OSError s
  | Some file =>
      match files s !! file with
      | None => Aborted OSError s
      | Some raw =>
          match text_decode file_encoding raw with
          | Raise e => Aborted e s
          | Ok content =>
              match safe_load content with
              | Raise e => Aborted e s
              | Ok (h, data) =>
                  if negb (truthy h data) then Done s
                  else
                    match update_document h data (total s) (out s) with
                    | Raise e => Aborted e s
                    | Ok (h', total', out') =>
                        if can_write fsys file
                        then Done {| files := <[file :=
                                        text_encode file_encoding
                                          (dump_document h' data)]> (files s);
                                     total := total';
                                     out := out' |}
                        else Aborted OSError
                               {| files := files s; total := total'; out := out' |}
                    end
              end
          end
      end
  end.

Fixpoint process_files_on `{Library} (fsys : file_system)
  (yaml_files : list string) (s : state) : outcome :=
  match yaml_files with
  | [] => Done s
  | f :: rest =>
      match process_file_on fsys f s with
      | Done s' => process_files_on fsys rest s'
      | Aborted e s' => Aborted e s'
      end
  end.

Definition process_dir_on `{Library} (fsys : file_system) (tree : dir_table)
  (data_dir : string) (s : state) : outcome :=
  match tree !! data_dir with
  | None => Done s
  | Some yaml_files => process_files_on fsys yaml_files s
  end.

Fixpoint process_dirs_on `{Library} (fsys : file_system) (tree : dir_table)
  (dirs : list string) (s : state) : outcome :=
  match dirs with
  | [] => Done s
  | d :: rest =>
      match process_dir_on fsys tree d s with
      | Done s' => process_dirs_on fsys tree rest s'
      | Aborted e s' => Aborted e s'
      end
  end.

Definition run_on `{Library} (fsys : file_system) (tree : dir_table)
  (fs : gmap string (list byte)) : outcome :=
  match process_dirs_on fsys tree data_dirs
          {| files := fs; total := 0; out := [] |} with
  | Done s => Done (print (ETotal (total s)) s)
  | Aborted e s => Aborted e s
  end.


(** ** What PyYAML does on two more files *)

(** An ordered map.  [safe_load] builds a list of pairs for it, and
    [yaml.dump], which is not the safe dumper, writes each pair back with
    the tag [!!python/tuple], which [safe_load] refuses.  A pair is a tuple;
    it is held here as a list object, which is exact for the one thing the
    script asks of an element, whether it is a dict. *)
Module Omap.

Definition omap_text : string :=
  ("--- !!omap" ++ Example.nl ++ "- a: 1" ++ Example.nl)%string.

Definition omap : heap :=
  {[ 1 := OList [VRef 2];
     2 := OList [Example.str "a"; VScalar (SInt 1%Z)] ]}.

Definition tuple_text : string :=
  ("- !!python/tuple" ++ Example.nl ++ "  - a" ++ Example.nl
   ++ "  - 1" ++ Example.nl)%string.

#[local] Instance library : Library := {
  safe_load := fun content =>
    if String.eqb content omap_text then Ok (omap, VRef 1) else Raise YAMLError;
  yaml_dump := fun _ _ _ => tuple_text;
  text_decode := fun _ raw => Ok (string_of_list_byte raw);
  text_encode := fun _ text => list_byte_of_string text
}.

Definition omap_yml : string := "_data/programs/ordered.yml".

Definition tree : dir_table := {[ Example.programs_dir := [omap_yml] ]}.

Definition disk : gmap string (list byte) :=
  {[ omap_yml := Example.on_disk omap_text ]}.

End Omap.

(** A mapping whose [programs] is the empty sequence.  The emitter writes an
    empty collection in flow form also when block style is asked for. *)
Module EmptySequence.

Definition empty_programs_text : string :=
  ("programs: []" ++ Example.nl)%string.

Definition empty_programs : heap :=
  {[ 1 := ODict [(SStr "programs", VRef 2)];
     2 := OList [] ]}.

#[local] Instance library : Library := {
  safe_load := fun content =>
    if String.eqb content empty_programs_text
    then Ok (empty_programs, VRef 1) else Raise YAMLError;
  yaml_dump := Example.emit;
  text_decode := fun _ raw => Ok (string_of_list_byte raw);
  text_encode := fun _ text => list_byte_of_string text
}.


End EmptySequence.

(** File systems for the runs below. *)
Module Disks.


Definition link_yml : string := "_data/programs/link.yml".
Definition elsewhere_yml : string := "archive/records.yml".

(** [link.yml] is a symbolic link to a file outside the data directories. *)
Definition linked : file_system :=
  {| target := fun path =>
       if String.eqb path link_yml then Some elsewhere_yml else Some path;
     can_write := fun _ => true |}.

Definition link_tree : dir_table := {[ Example.programs_dir := [link_yml] ]}.

Definition link_disk : gmap string (list byte) :=
  {[ elsewhere_yml := Example.on_disk Example.alpha_beta_text;
     Example.plain_yml := Example.on_disk Example.plain_text ]}.

End Disks.

(** * Properties *)

(** ** Dicts *)

Section Dicts.
Implicit Types (d : list (scalar * value)) (key : string) (v : value).

Lemma key_is_refl key : key_is key (SStr key) = true.
Proof. apply String.eqb_refl. Qed.

Lemma key_is_true key k : key_is key k = true -> k = SStr key.
Proof.
  destruct k; simpl; try discriminate.
  intros E. apply String.eqb_eq in E. by subst.
Qed.

Lemma key_is_other key key' k :
  key <> key' -> key_is key k = true -> key_is key' k = false.
Proof.
  intros Hne E. apply key_is_true in E as ->. simpl.
  apply String.eqb_neq. congruence.
Qed.

Lemma dict_get_set key v d : dict_get key (dict_set key v d) = Some v.
Proof.
  induction d as [|[k w] d IH]; simpl.
  - by rewrite String.eqb_refl.
  - destruct (key_is key k) eqn:E; simpl; by rewrite E.
Qed.

Lemma dict_get_set_ne key key' v d :
  key <> key' -> dict_get key' (dict_set key v d) = dict_get key' d.
Proof.
  intros Hne. induction d as [|[k w] d IH]; simpl.
  - assert (String.eqb key' key = false) as -> by (apply String.eqb_neq; congruence).
    done.
  - destruct (key_is key k) eqn:E; simpl.
    + by rewrite (key_is_other _ _ _ Hne E).
    + by rewrite IH.
Qed.

Lemma dict_set_idem key v d :
  dict_set key v (dict_set key v d) = dict_set key v d.
Proof.
  induction d as [|[k w] d IH]; simpl.
  - by rewrite String.eqb_refl.
  - destruct (key_is key k) eqn:E; simpl; rewrite E; [done | by rewrite IH].
Qed.

(** Setting the value a key already has changes nothing. *)
Lemma dict_set_same key v d : dict_get key d = Some v -> dict_set key v d = d.
Proof.
  induction d as [|[k w] d IH]; simpl; [done |].
  destruct (key_is key k); [by intros [= ->] | by intros ->%IH].
Qed.

Lemma other_fields_set v d :
  other_fields (dict_set "verified_date" v d) = other_fields d.
Proof.
  unfold other_fields. induction d as [|[k w] d IH]; [done |].
  cbn [dict_set]. destruct (key_is "verified_date" k) eqn:E.
  - cbn [List.filter fst]. by rewrite E.
  - cbn [List.filter fst]. rewrite E. cbn [negb]. by rewrite IH.
Qed.

(** Key order: a key already present stays where it is, a new key goes to
    the end; no other key moves. *)
Lemma dict_keys_set key v d :
  dict_keys (dict_set key v d) =
    match dict_get key d with
    | Some _ => dict_keys d
    | None => dict_keys d ++ [SStr key]
    end.
Proof.
  unfold dict_keys. induction d as [|[k w] d IH]; simpl; [done |].
  destruct (key_is key k); simpl; [done |].
  rewrite IH. by destruct (dict_get key d).
Qed.

End Dicts.

(** ** The record loop *)

Section Loop.
Implicit Types (h : heap) (t : nat) (o : list event) (x : value) (l : loc).

Lemma stamp_object_idem ob : stamp_object (stamp_object ob) = stamp_object ob.
Proof. destruct ob; simpl; [done | by rewrite dict_set_idem]. Qed.

Lemma stamp_program_heap h t o x :
  heap_of (stamp_program (h, t, o) x) =
    match x with
    | VRef l =>
        match h !! l with
        | Some (ODict d) => <[l := stamp_object (ODict d)]> h
        | _ => h
        end
    | VScalar _ => h
    end.
Proof. destruct x as [|l]; simpl; [done |]. by destruct (h !! l) as [[]|]. Qed.

Lemma stamp_program_total h t o x :
  total_of (stamp_program (h, t, o) x) = t + (if is_dict h x then 1 else 0).
Proof.
  destruct x as [|l]; simpl; [unfold total_of; simpl; lia |].
  destruct (h !! l) as [[]|]; unfold total_of; simpl; lia.
Qed.

Lemma stamp_lookup_eq h t o l :
  heap_of (stamp_program (h, t, o) (VRef l)) !! l = stamp_object <$> (h !! l).
Proof.
  rewrite stamp_program_heap. destruct (h !! l) as [[]|] eqn:E; rewrite ?E; try done.
  by rewrite lookup_insert_eq.
Qed.

Lemma stamp_lookup_ne h t o x l :
  x <> VRef l -> heap_of (stamp_program (h, t, o) x) !! l = h !! l.
Proof.
  intros Hne. rewrite stamp_program_heap. destruct x as [|l']; [done |].
  destruct (h !! l') as [[]|]; try done.
  rewrite lookup_insert_ne; [done | congruence].
Qed.

(** One iteration either leaves an object alone or stamps it. *)
Lemma stamp_lookup_cases h t o x l :
  heap_of (stamp_program (h, t, o) x) !! l = h !! l
  \/ heap_of (stamp_program (h, t, o) x) !! l = stamp_object <$> (h !! l).
Proof.
  destruct (decide (x = VRef l)) as [->|Hne].
  - right. apply stamp_lookup_eq.
  - left. by apply stamp_lookup_ne.
Qed.

Lemma is_dict_stamp_object h h' x :
  (forall l, h' !! l = h !! l \/ h' !! l = stamp_object <$> (h !! l)) ->
  is_dict h' x = is_dict h x.
Proof.
  intros Hl. destruct x as [|l]; simpl; [done |].
  destruct (Hl l) as [-> | ->]; [done |]. by destruct (h !! l) as [[]|].
Qed.

Lemma is_dict_stamp_program h t o x y :
  is_dict (heap_of (stamp_program (h, t, o) x)) y = is_dict h y.
Proof. apply is_dict_stamp_object. intros l. apply stamp_lookup_cases. Qed.

Lemma update_programs_cons x xs st :
  update_programs (x :: xs) st = update_programs xs (stamp_program st x).
Proof. done. Qed.

Lemma update_programs_app xs ys st :
  update_programs (xs ++ ys) st = update_programs ys (update_programs xs st).
Proof. apply fold_left_app. Qed.

(** An object that is not an element of the sequence is not touched. *)
Lemma update_lookup_notin xs h t o l :
  VRef l ∉ xs -> heap_of (update_programs xs (h, t, o)) !! l = h !! l.
Proof.
  revert h t o. induction xs as [|x xs IH]; intros h t o Hnot; [done |].
  apply not_elem_of_cons in Hnot as [Hx Hxs].
  rewrite update_programs_cons.
  destruct (stamp_program (h, t, o) x) as [[h1 t1] o1] eqn:E.
  rewrite IH by done.
  change h1 with (heap_of (h1, t1, o1)). rewrite <- E.
  apply stamp_lookup_ne. congruence.
Qed.

(** An element of the sequence ends up stamped, however often it occurs. *)
Lemma update_lookup_in xs h t o l :
  VRef l ∈ xs ->
  heap_of (update_programs xs (h, t, o)) !! l = stamp_object <$> (h !! l).
Proof.
  revert h t o. induction xs as [|x xs IH]; intros h t o Hin.
  - by apply elem_of_nil in Hin.
  - rewrite update_programs_cons.
    destruct (stamp_program (h, t, o) x) as [[h1 t1] o1] eqn:E.
    assert (h1 = heap_of (stamp_program (h, t, o) x)) as Hh1 by by rewrite E.
    destruct (decide (VRef l ∈ xs)) as [Hxs|Hxs].
    + rewrite IH by done. rewrite Hh1.
      destruct (stamp_lookup_cases h t o x l) as [-> | ->]; [done |].
      rewrite <- option_fmap_compose.
      apply option_fmap_ext. intros ob. apply stamp_object_idem.
    + apply elem_of_cons in Hin as [<- | ?]; [| done].
      rewrite update_lookup_notin by done. rewrite Hh1.
      apply stamp_lookup_eq.
Qed.

Lemma update_lookup_cases xs h t o l :
  heap_of (update_programs xs (h, t, o)) !! l = h !! l
  \/ heap_of (update_programs xs (h, t, o)) !! l = stamp_object <$> (h !! l).
Proof.
  destruct (decide (VRef l ∈ xs)).
  - right. by apply update_lookup_in.
  - left. by apply update_lookup_notin.
Qed.

Lemma is_dict_update xs h t o y :
  is_dict (heap_of (update_programs xs (h, t, o))) y = is_dict h y.
Proof. apply is_dict_stamp_object. intros l. apply update_lookup_cases. Qed.

Lemma record_count_ext h h' xs :
  (forall y, is_dict h' y = is_dict h y) -> record_count h' xs = record_count h xs.
Proof.
  intros Hext. unfold record_count. f_equal.
  induction xs as [|x xs IH]; simpl; [done |]. by rewrite Hext, IH.
Qed.

(** [total] grows by the number of mappings in the sequence. *)
Lemma update_total xs h t o :
  total_of (update_programs xs (h, t, o)) = t + record_count h xs.
Proof.
  revert h t o. induction xs as [|x xs IH]; intros h t o.
  - unfold total_of, record_count. simpl. lia.
  - rewrite update_programs_cons.
    destruct (stamp_program (h, t, o) x) as [[h1 t1] o1] eqn:E.
    rewrite IH.
    assert (t1 = total_of (stamp_program (h, t, o) x)) as -> by by rewrite E.
    assert (h1 = heap_of (stamp_program (h, t, o) x)) as -> by by rewrite E.
    rewrite stamp_program_total.
    rewrite (record_count_ext h _ xs) by (intros y; apply is_dict_stamp_program).
    unfold record_count. simpl. destruct (is_dict h x); simpl; lia.
Qed.


End Loop.

(** ** One file *)

Section File.
Context `{Library}.
Implicit Types (h : heap) (s : state) (data : value) (xs : list value).


(** A file whose document is false is left after the header line. *)
Lemma process_file_skipped yaml_file s raw content h data :
  files s !! yaml_file = Some raw ->
  text_decode file_encoding raw = Ok content ->
  safe_load content = Ok (h, data) ->
  truthy h data = false ->
  process_file yaml_file s = Done (print (EFile yaml_file) s).
Proof.
  intros Hraw Hdec Hload Hfalse. unfold process_file. simpl.
  by rewrite Hraw, Hdec, Hload, Hfalse.
Qed.

(** A file whose document is true and whose records can be iterated is
    written back with the stamped document. *)
Lemma process_file_written yaml_file s raw content h data xs :
  files s !! yaml_file = Some raw ->
  text_decode file_encoding raw = Ok content ->
  safe_load content = Ok (h, data) ->
  truthy h data = true ->
  programs_items h data = Ok xs ->
  process_file yaml_file s =
    let st := update_programs xs (h, total s, out s ++ [EFile yaml_file]) in
    Done {| files := <[yaml_file :=
                text_encode file_encoding (dump_document (heap_of st) data)]>
                (files s);
            total := total_of st;
            out := out_of st |}.
Proof.
  intros Hraw Hdec Hload Htrue Hitems. unfold process_file, update_document. simpl.
  rewrite Hraw, Hdec, Hload, Htrue, Hitems. simpl.
  by destruct (update_programs xs _) as [[h' t'] o'].
Qed.

(** A document that is true but offers no records to iterate cuts the run
    before the write. *)
Lemma process_file_raises yaml_file s raw content h data e :
  files s !! yaml_file = Some raw ->
  text_decode file_encoding raw = Ok content ->
  safe_load content = Ok (h, data) ->
  truthy h data = true ->
  programs_items h data = Raise e ->
  process_file yaml_file s = Aborted e (print (EFile yaml_file) s).
Proof.
  intros Hraw Hdec Hload Htrue Hitems. unfold process_file, update_document. simpl.
  by rewrite Hraw, Hdec, Hload, Htrue, Hitems.
Qed.


Lemma programs_items_dict h l m :
  h !! l = Some (ODict m) ->
  programs_items h (VRef l) =
    match dict_get "programs" m with
    | Some programs => py_iter h programs
    | None => Ok []
    end.
Proof. intros Hl. unfold programs_items. simpl. by rewrite Hl. Qed.

Lemma stamp_program_skip h t o x :
  is_dict h x = false -> stamp_program (h, t, o) x = (h, t, o).
Proof.
  destruct x as [|l]; simpl; [done |]. by destruct (h !! l) as [[]|].
Qed.

Lemma verified_date_of_stamped h h' x :
  is_dict h x = true ->
  (forall l, x = VRef l -> h' !! l = stamp_object <$> (h !! l)) ->
  verified_date_of h' x = Some (VScalar (SStr today)).
Proof.
  destruct x as [|l]; simpl; [done |]. intros Hd Hl.
  rewrite (Hl l) by done.
  destruct (h !! l) as [[|d]|]; try done. simpl. apply dict_get_set.
Qed.

End File.

(** ** The stated properties *)

Section Records.
Context `{Library}.
Implicit Types (h : heap) (s : state) (data : value) (xs : list value).


(** C2.  A document that is a mapping: the loop runs over the elements of
    the value under [programs] and over nothing else, and when the key is
    absent it runs over no element at all, so that the store and [total]
    are as before.  An object that is not one of those elements, such as
    the value of another top-level entry, is never stamped. *)
Theorem mapping_records_come_from_programs h l m :
  h !! l = Some (ODict m) ->
  programs_items h (VRef l) =
    match dict_get "programs" m with
    | Some programs => py_iter h programs
    | None => Ok []
    end
  /\ (forall l2 ys, dict_get "programs" m = Some (VRef l2) ->
        h !! l2 = Some (OList ys) -> programs_items h (VRef l) = Ok ys)
  /\ (dict_get "programs" m = None ->
        forall t o, update_document h (VRef l) t o = Ok (h, t, o))
  /\ (forall xs t o, programs_items h (VRef l) = Ok xs ->
        exists st,
          update_document h (VRef l) t o = Ok st
          /\ st = update_programs xs (h, t, o)
          /\ total_of st = t + record_count h xs
          /\ forall l', VRef l' ∉ xs -> heap_of st !! l' = h !! l').
Proof.
  intros Hl. pose proof (programs_items_dict h l m Hl) as Hitems.
  split; [done |]. split; [| split].
  - intros l2 ys Hget Hl2. rewrite Hitems, Hget. simpl. by rewrite Hl2.
  - intros Hget t o. unfold update_document. by rewrite Hitems, Hget.
  - intros xs t o Hxs. exists (update_programs xs (h, t, o)).
    split; [| split; [| split]].
    + unfold update_document. by rewrite Hxs.
    + done.
    + apply update_total.
    + intros l' Hnot. by apply update_lookup_notin.
Qed.

(** C5.  An element of the record sequence that is not a mapping: the loop
    ends in the state it would reach if the element were not there (same
    store, same [total], same output), so the elements after it are
    processed as usual and it adds nothing to [total]; the element itself
    is the same object with the same contents afterwards; and a document
    with such an element is updated without an exception. *)
Theorem non_mapping_elements_skipped h xs1 x xs2 t o :
  is_dict h x = false ->
  update_programs (xs1 ++ x :: xs2) (h, t, o)
    = update_programs (xs1 ++ xs2) (h, t, o)
  /\ total_of (update_programs (xs1 ++ x :: xs2) (h, t, o))
       = t + record_count h xs1 + record_count h xs2
  /\ (forall l, x = VRef l ->
        heap_of (update_programs (xs1 ++ x :: xs2) (h, t, o)) !! l = h !! l)
  /\ (forall data, programs_items h data = Ok (xs1 ++ x :: xs2) ->
        update_document h data t o
          = Ok (update_programs (xs1 ++ xs2) (h, t, o))).
Proof.
  intros Hx.
  assert (update_programs (xs1 ++ x :: xs2) (h, t, o)
            = update_programs (xs1 ++ xs2) (h, t, o)) as Heq.
  { rewrite !update_programs_app, update_programs_cons.
    destruct (update_programs xs1 (h, t, o)) as [[h1 t1] o1] eqn:E.
    rewrite stamp_program_skip; [done |].
    assert (h1 = heap_of (update_programs xs1 (h, t, o))) as -> by by rewrite E.
    by rewrite is_dict_update. }
  split; [done |]. split; [| split].
  - rewrite Heq, update_total. unfold record_count.
    rewrite List.filter_app, List.length_app. lia.
  - intros l ->.
    destruct (update_lookup_cases (xs1 ++ VRef l :: xs2) h t o l) as [E | E];
      rewrite E; [done |].
    simpl in Hx. by destruct (h !! l) as [[]|].
  - intros data Hitems. unfold update_document. by rewrite Hitems, Heq.
Qed.

End Records.

Section Frame.
Context `{Library}.
Implicit Types (h : heap) (s : state) (data : value) (xs : list value).

(** What the loop can do to the object at an address: nothing to a list or
    to a free address; to a dict, at most set [verified_date]. *)
Lemma update_frame xs h t o l :
  match h !! l with
  | Some (ODict d) =>
      exists d',
        heap_of (update_programs xs (h, t, o)) !! l = Some (ODict d')
        /\ (d' = d \/ d' = dict_set "verified_date" (VScalar (SStr today)) d)
  | other => heap_of (update_programs xs (h, t, o)) !! l = other
  end.
Proof.
  destruct (update_lookup_cases xs h t o l) as [E | E]; rewrite E;
    destruct (h !! l) as [[ys|d]|]; simpl; eauto.
Qed.

Lemma update_no_records xs h t o :
  record_count h xs = 0 -> update_programs xs (h, t, o) = (h, t, o).
Proof.
  unfold record_count. induction xs as [|x xs IH]; [done |].
  intros Hc. cbn [List.filter] in Hc. destruct (is_dict h x) eqn:E; [done |].
  rewrite update_programs_cons, stamp_program_skip by done. by apply IH.
Qed.

(** C9.  When a document is updated, with [xs] the elements the loop runs
    over: an object that is not one of these elements is exactly as before;
    no address is allocated or freed; every list, the record sequence
    included, has the same elements; and every dict, be it a record or the
    top-level mapping, has the same entries in the same order for all keys
    other than [verified_date], so reading any other field gives what it
    gave before.  Field values are compared as Python stores them: a scalar
    by value, a container by the identity of the object. *)
Theorem only_verified_date_is_written h data t o st :
  update_document h data t o = Ok st ->
  exists xs,
    programs_items h data = Ok xs
    /\ forall l,
         (VRef l ∉ xs -> heap_of st !! l = h !! l)
         /\ (h !! l = None -> heap_of st !! l = None)
         /\ (forall ys, h !! l = Some (OList ys) ->
               heap_of st !! l = Some (OList ys))
         /\ (forall d, h !! l = Some (ODict d) ->
               exists d',
                 heap_of st !! l = Some (ODict d')
                 /\ other_fields d' = other_fields d
                 /\ forall key, key <> "verified_date" ->
                      dict_get key d' = dict_get key d).
Proof.
  unfold update_document. destruct (programs_items h data) as [xs|e] eqn:Hxs;
    [| done].
  intros [= <-]. exists xs. split; [done |]. intros l.
  pose proof (update_frame xs h t o l) as Hf.
  split; [| split; [| split]].
  - intros Hnot. by apply update_lookup_notin.
  - intros E. by rewrite E in Hf.
  - intros ys E. by rewrite E in Hf.
  - intros d E. rewrite E in Hf. destruct Hf as (d' & Hd' & [-> | ->]).
    + by exists d.
    + eexists. split; [done |]. split; [apply other_fields_set |].
      intros key Hkey. apply dict_get_set_ne. congruence.
Qed.



End Frame.

(** ** The whole run *)

Section Run.
Context `{Library}.
Implicit Types (h : heap) (s : state) (data : value) (xs : list value).
Implicit Types (tree : dir_table) (fs : gmap string (list byte)).

(** A visit writes to the visited file only. *)
Lemma process_file_other yaml_file p s :
  yaml_file <> p ->
  files (state_of (process_file yaml_file s)) !! p = files s !! p.
Proof.
  intros Hne. unfold process_file. simpl.
  destruct (files s !! yaml_file) as [raw|]; [| done].
  destruct (text_decode file_encoding raw) as [content|]; [| done].
  destruct (safe_load content) as [[h data]|]; [| done].
  destruct (truthy h data); simpl; [| done].
  destruct (update_document h data _ _) as [[[h' t'] o']|]; [| done].
  simpl. by rewrite lookup_insert_ne.
Qed.

Lemma process_files_app ps qs s :
  process_files (ps ++ qs) s =
    match process_files ps s with
    | Done s' => process_files qs s'
    | Aborted e s' => Aborted e s'
    end.
Proof.
  revert s. induction ps as [|p ps IH]; intros s; simpl; [done |].
  destruct (process_file p s); [apply IH | done].
Qed.

(** The two loops together visit the listed files one after the other. *)
Lemma process_dirs_listed tree dirs s :
  process_dirs tree dirs s = process_files (listed tree dirs) s.
Proof.
  revert s. induction dirs as [|d dirs IH]; intros s; simpl; [done |].
  rewrite process_files_app. unfold process_dir.
  destruct (tree !! d) as [ps|]; simpl; [| apply IH].
  destruct (process_files ps s); [apply IH | done].
Qed.

Section FalseDocument.
Variables (p : string) (raw : list byte) (content : string)
          (h : heap) (data : value).
Hypothesis Hdec : text_decode file_encoding raw = Ok content.
Hypothesis Hload : safe_load content = Ok (h, data).
Hypothesis Hfalse : truthy h data = false.

Lemma process_file_keeps_false yaml_file s :
  files s !! p = Some raw ->
  files (state_of (process_file yaml_file s)) !! p = Some raw.
Proof.
  intros Hp. destruct (decide (yaml_file = p)) as [-> | Hne].
  - by rewrite (process_file_skipped _ _ _ _ _ _ Hp Hdec Hload Hfalse).
  - by rewrite process_file_other.
Qed.

Lemma process_files_keeps_false ps s :
  files s !! p = Some raw ->
  files (state_of (process_files ps s)) !! p = Some raw.
Proof.
  revert s. induction ps as [|q ps IH]; intros s Hp; simpl; [done |].
  pose proof (process_file_keeps_false q s Hp) as Hq.
  destruct (process_file q s); [by apply IH | done].
Qed.
End FalseDocument.

(** C6.  A file whose content parses to a document that is false (an empty
    file gives [None]): a visit to it ends right after the header line with
    every file and [total] as they were, and at the end of the whole run,
    also of a run cut by an exception elsewhere, the file holds the very
    bytes it held at the start. *)
Theorem empty_document_file_untouched tree fs p raw content h data :
  fs !! p = Some raw ->
  text_decode file_encoding raw = Ok content ->
  safe_load content = Ok (h, data) ->
  truthy h data = false ->
  (forall s, files s !! p = Some raw ->
     process_file p s =
       Done {| files := files s; total := total s; out := out s ++ [EFile p] |})
  /\ files (state_of (run tree fs)) !! p = Some raw.
Proof.
  intros Hp Hdec Hload Hfalse. split.
  - intros s Hs. by rewrite (process_file_skipped _ _ _ _ _ _ Hs Hdec Hload Hfalse).
  - unfold run. rewrite process_dirs_listed.
    pose proof (process_files_keeps_false p raw content h data Hdec Hload Hfalse
                  (listed tree data_dirs)
                  {| files := fs; total := 0; out := [] |} Hp) as Hk.
    by destruct (process_files _ _).
Qed.

Lemma process_dirs_app tree ds1 ds2 s :
  process_dirs tree (ds1 ++ ds2) s =
    match process_dirs tree ds1 s with
    | Done s' => process_dirs tree ds2 s'
    | Aborted e s' => Aborted e s'
    end.
Proof.
  revert s. induction ds1 as [|d ds1 IH]; intros s; simpl; [done |].
  destruct (process_dir tree d s); [apply IH | done].
Qed.

(** C7.  A configured directory that does not exist, [data_dirs] being
    [before ++ d :: after]: its turn in the loop ends normally in the state
    it started from (no exception, no file read or written, nothing printed,
    [total] as before), and the loop over the configured directories goes on
    and gives what it gives over the other directories alone. *)
Theorem missing_directory_is_skipped tree before d after s :
  data_dirs = before ++ d :: after ->
  tree !! d = None ->
  process_dir tree d s = Done s
  /\ total (state_of (process_dir tree d s)) = total s
  /\ process_dirs tree data_dirs s = process_dirs tree (before ++ after) s.
Proof.
  intros -> Hd.
  assert (process_dir tree d s = Done s) as Hskip by (unfold process_dir; by rewrite Hd).
  split; [done |]. split; [by rewrite Hskip |].
  rewrite !process_dirs_app. destruct (process_dirs tree before s) as [s'|]; [| done].
  simpl. unfold process_dir. by rewrite Hd.
Qed.

End Run.

(** ** Running twice *)

Section Twice.
Context `{Library}.
Implicit Types (h : heap) (s : state) (data : value) (xs : list value).
Implicit Types (tree : dir_table) (fs : gmap string (list byte)).













End Twice.

(** ** The date, and the script on concrete files *)

Section Examples.
Import Example.
Existing Instance Example.library.

(** C3.  The string the loop writes is the literal assigned to [today],
    ['2025-12-16'], and not the date the docstring mentions,
    ['2025-12-17']: every dict the loop stamps reads back ['2025-12-16']
    under [verified_date].  On the worked example, a file with the two
    records [Alpha] and [Beta], both records end with
    [verified_date: '2025-12-16'] after their own fields, the file holds
    the dump of that document, and the reported total is 2. *)
Theorem fixed_date_is_the_assigned_literal :
  today = "2025-12-16"
  /\ String.substring 23 10 docstring = "2025-12-17"
  /\ today <> String.substring 23 10 docstring
  /\ (forall h t o l d,
        verified_date_of
          (heap_of (stamp_program (<[l := ODict d]> h, t, o) (VRef l))) (VRef l)
        = Some (VScalar (SStr "2025-12-16")))
  /\ update_document alpha_beta (VRef 1) 0 []
     = Ok (alpha_beta_stamped, 2, [ERecord (str "Alpha"); ERecord (str "Beta")])
  /\ alpha_beta_stamped !! 2
     = Some (ODict [(SStr "name", str "Alpha");
                    (SStr "verified_date", VScalar (SStr "2025-12-16"))])
  /\ alpha_beta_stamped !! 3
     = Some (ODict [(SStr "name", str "Beta");
                    (SStr "verified_date", VScalar (SStr "2025-12-16"))])
  /\ run one_file_tree {[ a_yml := on_disk alpha_beta_text ]}
     = Done {| files := {[ a_yml := on_disk alpha_beta_stamped_text ]};
               total := 2;
               out := [EFile a_yml; ERecord (str "Alpha");
                       ERecord (str "Beta"); ETotal 2] |}.
Proof.
  split; [done |]. split; [done |]. split; [done |]. split.
  - intros h t o l d. rewrite (verified_date_of_stamped (<[l := ODict d]> h)).
    + done.
    + simpl. by rewrite lookup_insert_eq.
    + intros l' [= <-]. apply stamp_lookup_eq.
  - repeat split; by vm_compute.
Qed.


Lemma mapping_records_come_from_programs_witness :
  programs_items wrapped (VRef 1) = Ok [VRef 3].
Proof.
  destruct (mapping_records_come_from_programs wrapped 1
              [(SStr "title", str "Listing"); (SStr "programs", VRef 2)])
    as (_ & Hlist & _); [vm_compute; reflexivity |].
  apply (Hlist 2 [VRef 3]); vm_compute; reflexivity.
Defined.


Lemma non_mapping_elements_skipped_witness :
  update_programs ([VScalar (SInt 7); VRef 2] ++ str "note" :: []) (mixed, 0, [])
    = update_programs ([VScalar (SInt 7); VRef 2] ++ []) (mixed, 0, [])
  /\ total_of (update_programs ([VScalar (SInt 7); VRef 2] ++ str "note" :: [])
                 (mixed, 0, [])) = 1.
Proof.
  destruct (non_mapping_elements_skipped mixed [VScalar (SInt 7); VRef 2]
              (str "note") [] 0 [])
    as (Hsame & Htotal & _); [vm_compute; reflexivity |].
  split; [exact Hsame |]. rewrite Htotal. vm_compute. reflexivity.
Defined.

Lemma empty_document_file_untouched_witness :
  files (state_of (run two_file_tree two_files)) !! empty_yml = Some (on_disk "").
Proof.
  destruct (empty_document_file_untouched two_file_tree two_files empty_yml
              (on_disk "") "" ∅ (VScalar SNull))
    as [_ Hrun]; [vm_compute; reflexivity ..|].
  exact Hrun.
Defined.

Lemma missing_directory_is_skipped_witness :
  process_dir one_file_tree college_dir (start a_yml alpha_beta_text)
    = Done (start a_yml alpha_beta_text)
  /\ process_dirs one_file_tree data_dirs (start a_yml alpha_beta_text)
     = process_dirs one_file_tree [programs_dir] (start a_yml alpha_beta_text).
Proof.
  destruct (missing_directory_is_skipped one_file_tree [programs_dir] college_dir []
              (start a_yml alpha_beta_text)) as (Hskip & _ & Hrest).
  - reflexivity.
  - vm_compute. reflexivity.
  - split; [exact Hskip | exact Hrest].
Defined.


Lemma only_verified_date_is_written_witness :
  exists xs,
    programs_items mixed (VRef 1) = Ok xs
    /\ exists d',
         heap_of (update_programs xs (mixed, 0, [])) !! 2 = Some (ODict d')
         /\ other_fields d' = [(SStr "name", str "Gamma")]
         /\ dict_get "name" d' = Some (str "Gamma").
Proof.
  destruct (only_verified_date_is_written mixed (VRef 1) 0 []
              (update_programs [VScalar (SInt 7); VRef 2; str "note"] (mixed, 0, [])))
    as (xs & Hxs & Hframe); [vm_compute; reflexivity |].
  exists xs. split; [exact Hxs |].
  destruct (Hframe 2) as (_ & _ & _ & Hdict).
  destruct (Hdict [(SStr "verified_date", str "2024-01-01");
                   (SStr "name", str "Gamma")])
    as (d' & Hd' & Hother & Hget); [vm_compute; reflexivity |].
  exists d'. split; [| split].
  - vm_compute in Hxs. injection Hxs as <-. exact Hd'.
  - exact Hother.
  - rewrite Hget; [reflexivity | discriminate].
Defined.



(** What the script does on that file. *)
Lemma null_programs_run_is_cut :
  process_file null_yml (start null_yml null_programs_text)
    = Aborted TypeError
        {| files := {[ null_yml := on_disk null_programs_text ]};
           total := 0;
           out := [EFile null_yml] |}.
Proof. vm_compute. reflexivity. Qed.

(** Sharing: a record reached twice through the sequence is one object,
    stamped in place and counted at each occurrence; the list that also
    refers to it is not written to and still refers to the same object. *)
Lemma shared_record_stamped_in_place :
  update_document shared (VRef 1) 0 []
    = Ok ({[ 1 := OList [VRef 2; VRef 2; VRef 3];
             2 := ODict [(SStr "name", str "Epsilon");
                         (SStr "verified_date", str "2025-12-16")];
             3 := OList [VRef 2] ]},
          2,
          [ERecord (str "Epsilon"); ERecord (str "Epsilon")]).
Proof. vm_compute. reflexivity. Qed.

End Examples.


(** * Further properties of the script *)

(** ** The assignment [program['verified_date'] = today] *)

Section Assignment.
Implicit Types (d : list (scalar * value)) (key : string) (v : value).

Lemma dict_get_None_key key d :
  dict_get key d = None -> SStr key ∉ dict_keys d.
Proof.
  unfold dict_keys. induction d as [|[k w] d IH]; simpl.
  - intros _. apply not_elem_of_nil.
  - destruct (key_is key k) eqn:E; [done |]. intros Hd.
    apply not_elem_of_cons. split; [| by apply IH].
    intros <-. by rewrite key_is_refl in E.
Qed.

Lemma dict_set_append key v d :
  dict_get key d = None -> dict_set key v d = d ++ [(SStr key, v)].
Proof.
  induction d as [|[k w] d IH]; simpl; [done |].
  destruct (key_is key k); [done |]. by intros ->%IH.
Qed.

Lemma dict_set_replace key v k w d1 d2 :
  dict_get key d1 = None ->
  key_is key k = true ->
  dict_set key v (d1 ++ (k, w) :: d2) = d1 ++ (k, v) :: d2.
Proof.
  intros Hd1 Hk. induction d1 as [|[k1 w1] d1 IH]; simpl.
  - by rewrite Hk.
  - simpl in Hd1. destruct (key_is key k1); [done |]. by rewrite IH.
Qed.

Lemma dict_set_NoDup key v d :
  NoDup (dict_keys d) -> NoDup (dict_keys (dict_set key v d)).
Proof.
  intros Hnd. rewrite dict_keys_set.
  destruct (dict_get key d) eqn:E; [done |].
  apply NoDup_app. split; [done |]. split; [| apply NoDup_singleton].
  intros k Hk ->%list_elem_of_singleton. by apply (dict_get_None_key key d).
Qed.

Lemma dict_set_length key v d :
  List.length d <= List.length (dict_set key v d) <= S (List.length d).
Proof.
  induction d as [|[k w] d IH]; simpl; [lia |].
  destruct (key_is key k); simpl; lia.
Qed.

End Assignment.

(** ** The record loop, further *)

Section LoopMore.
Implicit Types (h : heap) (t : nat) (o : list event) (x : value) (l : loc).
Implicit Types (xs ys : list value).

Lemma name_of_stamp_object h h' x :
  (forall l, h' !! l = h !! l \/ h' !! l = stamp_object <$> (h !! l)) ->
  name_of h' x = name_of h x.
Proof.
  intros Hl. destruct x as [|l]; simpl; [done |].
  destruct (Hl l) as [-> | ->]; [done |].
  destruct (h !! l) as [[ys|d]|]; simpl; try done.
  by rewrite dict_get_set_ne.
Qed.

Lemma stamp_program_out h t o x :
  out_of (stamp_program (h, t, o) x)
    = o ++ (if is_dict h x then [ERecord (name_of h x)] else []).
Proof.
  destruct x as [|l]; simpl; [by rewrite app_nil_r |].
  destruct (h !! l) as [[ys|d]|]; simpl; try by rewrite app_nil_r.
  unfold out_of. simpl. by rewrite dict_get_set_ne.
Qed.

Lemma update_out xs h t o :
  out_of (update_programs xs (h, t, o))
    = o ++ map (fun x => ERecord (name_of h x)) (List.filter (is_dict h) xs).
Proof.
  revert h t o. induction xs as [|x xs IH]; intros h t o.
  - simpl. by rewrite app_nil_r.
  - rewrite update_programs_cons.
    destruct (stamp_program (h, t, o) x) as [[h1 t1] o1] eqn:E.
    assert (h1 = heap_of (stamp_program (h, t, o) x)) as Hh1 by by rewrite E.
    assert (o1 = out_of (stamp_program (h, t, o) x)) as Ho1 by by rewrite E.
    rewrite IH.
    rewrite (List.filter_ext (is_dict h1) (is_dict h))
      by (intros y; rewrite Hh1; apply is_dict_stamp_program).
    rewrite (map_ext (fun y => ERecord (name_of h1 y)) (fun y => ERecord (name_of h y)))
      by (intros y; f_equal; rewrite Hh1; apply name_of_stamp_object;
          intros l; apply stamp_lookup_cases).
    rewrite Ho1, stamp_program_out. cbn [List.filter].
    destruct (is_dict h x); simpl; by rewrite <- app_assoc.
Qed.

(** The lines the loop prints: one per mapping of the sequence, in order and
    with repetitions, each carrying the [name] the record had when it was
    loaded, or ['Unknown'] when it has none; so the output grows by as many
    lines as [total] grows. *)
Theorem loop_prints_one_line_per_record xs h t o :
  out_of (update_programs xs (h, t, o))
    = o ++ map (fun x => ERecord (name_of h x)) (List.filter (is_dict h) xs)
  /\ List.length (out_of (update_programs xs (h, t, o))) + t
     = List.length o + total_of (update_programs xs (h, t, o)).
Proof.
  split; [apply update_out |].
  rewrite update_out, update_total, List.length_app, List.length_map.
  unfold record_count. lia.
Qed.

(** The loop allocates and frees nothing and changes the type of no object:
    the store has the same addresses afterwards, and every value is a list,
    or a dict, exactly when it was one before. *)
Theorem loop_keeps_addresses_and_types xs h t o :
  dom (heap_of (update_programs xs (h, t, o))) = dom h
  /\ forall y,
       is_dict (heap_of (update_programs xs (h, t, o))) y = is_dict h y
       /\ is_list (heap_of (update_programs xs (h, t, o))) y = is_list h y.
Proof.
  split.
  - apply set_eq. intros l. rewrite !elem_of_dom.
    destruct (update_lookup_cases xs h t o l) as [-> | ->]; [done |].
    by rewrite fmap_is_Some.
  - intros y. split; [apply is_dict_update |].
    destruct y as [|l]; simpl; [done |].
    destruct (update_lookup_cases xs h t o l) as [-> | ->]; [done |].
    by destruct (h !! l) as [[]|].
Qed.

(** The store the loop leaves depends on which values occur in the sequence
    only, not on their order nor on how often each occurs: two sequences
    with the same elements give the same store, whatever the counter and the
    output they start from. *)
Theorem loop_store_ignores_order_and_repeats xs ys h t o t' o' :
  (forall x, x ∈ xs <-> x ∈ ys) ->
  heap_of (update_programs xs (h, t, o))
    = heap_of (update_programs ys (h, t', o')).
Proof.
  intros Hsame. apply map_eq. intros l.
  destruct (decide (VRef l ∈ xs)) as [Hin | Hnot].
  - rewrite (update_lookup_in xs) by done.
    rewrite (update_lookup_in ys) by (by apply Hsame). done.
  - rewrite (update_lookup_notin xs) by done.
    rewrite (update_lookup_notin ys); [done |]. intros Hin. by apply Hnot, Hsame.
Qed.

(** Where the date lands in a record of the sequence: a record with no
    [verified_date] gets it as a new last entry, all entries before it as
    they were; a record that has one keeps the entry at its place, with the
    new value. *)
Theorem date_is_appended_or_replaced_in_place xs h t o l d :
  VRef l ∈ xs ->
  h !! l = Some (ODict d) ->
  (dict_get "verified_date" d = None ->
     heap_of (update_programs xs (h, t, o)) !! l
       = Some (ODict (d ++ [(SStr "verified_date", VScalar (SStr today))])))
  /\ (forall d1 w d2,
        d = d1 ++ (SStr "verified_date", w) :: d2 ->
        dict_get "verified_date" d1 = None ->
        heap_of (update_programs xs (h, t, o)) !! l
          = Some (ODict (d1 ++ (SStr "verified_date", VScalar (SStr today)) :: d2))).
Proof.
  intros Hin Hl. rewrite (update_lookup_in xs h t o l Hin), Hl. simpl. split.
  - intros Hnone. by rewrite dict_set_append.
  - intros d1 w d2 -> Hd1. by rewrite dict_set_replace.
Qed.

(** A dict whose keys are pairwise distinct still has pairwise distinct keys
    after the loop, and has at most one entry more. *)
Theorem loop_keeps_keys_distinct xs h t o l d :
  h !! l = Some (ODict d) ->
  NoDup (dict_keys d) ->
  exists d',
    heap_of (update_programs xs (h, t, o)) !! l = Some (ODict d')
    /\ NoDup (dict_keys d')
    /\ List.length d <= List.length d' <= S (List.length d).
Proof.
  intros Hl Hnd.
  destruct (update_lookup_cases xs h t o l) as [E | E]; rewrite E, Hl; simpl.
  - exists d. split; [done |]. split; [done | lia].
  - eexists. split; [done |]. split; [by apply dict_set_NoDup | apply dict_set_length].
Qed.

Lemma str_chars_scalars s : Forall (fun x => exists a, x = VScalar a) (str_chars s).
Proof. induction s as [|c s IH]; simpl; constructor; eauto. Qed.

(** Iterating anything but a list yields scalars only. *)
Lemma py_iter_not_list h v xs :
  is_list h v = false ->
  py_iter h v = Ok xs ->
  Forall (fun x => exists a, x = VScalar a) xs.
Proof.
  destruct v as [a|l]; simpl.
  - intros _. destruct a; try done; intros [= <-].
    + apply str_chars_scalars.
    + apply Forall_fmap, Forall_true. intros b. by eexists.
  - destruct (h !! l) as [[ys|d]|]; try done. intros _ [= <-].
    apply Forall_fmap, Forall_true. intros kv. by eexists.
Qed.

Lemma record_count_scalars h xs :
  Forall (fun x => exists a, x = VScalar a) xs -> record_count h xs = 0.
Proof.
  unfold record_count. induction 1 as [|x xs [a ->] _ IH]; [done |]. by simpl.
Qed.

(** A mapping document whose [programs] value is not a list (a str, bytes or
    a dict): if the loop can iterate it at all, it meets characters, integers
    or keys only, so it stamps nothing, counts nothing and prints nothing. *)
Theorem programs_not_a_list_updates_nothing h l m v t o st :
  h !! l = Some (ODict m) ->
  dict_get "programs" m = Some v ->
  is_list h v = false ->
  update_document h (VRef l) t o = Ok st ->
  st = (h, t, o).
Proof.
  intros Hl Hget Hv. unfold update_document, programs_items. simpl.
  rewrite Hl, Hget. destruct (py_iter h v) as [xs|] eqn:Hxs; [| done].
  intros [= <-]. apply update_no_records.
  by eapply record_count_scalars, py_iter_not_list.
Qed.

End LoopMore.

(** ** Visits and runs, further *)

Section RunMore.
Context `{Library}.
Implicit Types (h : heap) (s : state) (data : value) (xs : list value).
Implicit Types (tree : dir_table) (fs : gmap string (list byte)).

(** The two ways a visit can go: it stops after the header line, normally
    or not, or it runs the loop and writes the file. *)
Lemma process_file_cases yaml_file s :
  state_of (process_file yaml_file s) = print (EFile yaml_file) s
  \/ exists raw h data xs,
       files s !! yaml_file = Some raw
       /\ programs_items h data = Ok xs
       /\ process_file yaml_file s =
            let st := update_programs xs (h, total s, out s ++ [EFile yaml_file]) in
            Done {| files := <[yaml_file :=
                        text_encode file_encoding (dump_document (heap_of st) data)]>
                        (files s);
                    total := total_of st;
                    out := out_of st |}.
Proof.
  destruct (files s !! yaml_file) as [raw|] eqn:Hraw;
    [| left; unfold process_file; simpl; by rewrite Hraw].
  destruct (text_decode file_encoding raw) as [content|e] eqn:Hdec;
    [| left; unfold process_file; simpl; by rewrite Hraw, Hdec].
  destruct (safe_load content) as [[h data]|e] eqn:Hload;
    [| left; unfold process_file; simpl; by rewrite Hraw, Hdec, Hload].
  destruct (truthy h data) eqn:Htruthy.
  - destruct (programs_items h data) as [xs|e] eqn:Hxs.
    + right. exists raw, h, data, xs. split; [done |]. split; [done |].
      by apply (process_file_written _ _ raw content).
    + left. by rewrite (process_file_raises _ _ raw content h data e).
  - left. by rewrite (process_file_skipped _ _ raw content h data).
Qed.

Lemma process_file_aborted yaml_file s e s' :
  process_file yaml_file s = Aborted e s' -> s' = print (EFile yaml_file) s.
Proof.
  intros Hab. destruct (process_file_cases yaml_file s) as [Hs | (raw & h & data & xs & _ & _ & Hd)].
  - by rewrite Hab in Hs.
  - by rewrite Hab in Hd.
Qed.

Lemma process_files_aborted ps s e s' :
  process_files ps s = Aborted e s' ->
  exists before q after s1,
    ps = before ++ q :: after
    /\ process_files before s = Done s1
    /\ process_file q s1 = Aborted e s'
    /\ s' = print (EFile q) s1.
Proof.
  revert s. induction ps as [|p ps IH]; intros s Hab; [done |].
  simpl in Hab. destruct (process_file p s) as [s0|e0 s0] eqn:Hp.
  - destruct (IH s0 Hab) as (before & q & after & s1 & -> & Hb & Hq & Hs').
    exists (p :: before), q, after, s1. split; [done |]. split; [| done].
    simpl. by rewrite Hp.
  - injection Hab as -> ->. exists [], p, ps, s. split; [done |]. split; [done |].
    split; [done |]. by eapply process_file_aborted.
Qed.


End RunMore.

(** ** What a run prints and which files it touches *)

Section RunOutput.
Context `{Library}.
Implicit Types (h : heap) (s : state) (data : value) (xs : list value).
Implicit Types (tree : dir_table) (fs : gmap string (list byte)).

Lemma lines_app (f : event -> bool) (o1 o2 : list event) :
  List.length (List.filter f (o1 ++ o2))
    = List.length (List.filter f o1) + List.length (List.filter f o2).
Proof. by rewrite List.filter_app, List.length_app. Qed.

(** How one visit moves the three line counts and [total]. *)
Lemma process_file_lines yaml_file s :
  let s' := state_of (process_file yaml_file s) in
  file_lines (out s') = S (file_lines (out s))
  /\ total_lines (out s') = total_lines (out s)
  /\ record_lines (out s') + total s = total s' + record_lines (out s).
Proof.
  destruct (process_file_cases yaml_file s)
    as [-> | (raw & h & data & xs & _ & _ & ->)]; simpl.
  - unfold file_lines, total_lines, record_lines. rewrite !lines_app. simpl.
    repeat split; lia.
  - rewrite update_out, update_total.
    unfold file_lines, total_lines, record_lines, record_count.
    rewrite !lines_app. simpl.
    assert (forall zs : list value,
              List.filter is_file_line (map (fun x => ERecord (name_of h x)) zs) = []
              /\ List.filter is_total_line (map (fun x => ERecord (name_of h x)) zs) = []
              /\ List.length
                   (List.filter is_record_line (map (fun x => ERecord (name_of h x)) zs))
                 = List.length zs) as Hmap.
    { induction zs as [|z zs (IH1 & IH2 & IH3)]; simpl; [done |].
      by rewrite IH1, IH2, IH3. }
    destruct (Hmap (List.filter (is_dict h) xs)) as (-> & -> & ->). simpl.
    repeat split; lia.
Qed.

Lemma process_files_lines ps s :
  let s' := state_of (process_files ps s) in
  total_lines (out s') = total_lines (out s)
  /\ record_lines (out s') + total s = total s' + record_lines (out s)
  /\ file_lines (out s') <= file_lines (out s) + List.length ps
  /\ (forall s1, process_files ps s = Done s1 ->
        file_lines (out s1) = file_lines (out s) + List.length ps).
Proof.
  revert s. induction ps as [|p ps IH]; intros s; simpl.
  - repeat split; try lia. intros s1 [= <-]. lia.
  - pose proof (process_file_lines p s) as (Hf & Ht & Hr).
    destruct (process_file p s) as [s0|e s0]; simpl in *.
    + destruct (IH s0) as (IHt & IHr & IHf & IHd).
      repeat split; try lia. intros s1 Hs1. rewrite (IHd s1 Hs1). lia.
    + repeat split; try lia. done.
Qed.

(** The number the script reports is the number of record lines it printed:
    at the end of a run, and also at the point where an exception cut it,
    [total] equals the count of record lines in the output. *)
Theorem total_is_the_number_of_record_lines tree fs :
  record_lines (out (state_of (run tree fs))) = total (state_of (run tree fs)).
Proof.
  unfold run. rewrite process_dirs_listed.
  pose proof (process_files_lines (listed tree data_dirs)
                {| files := fs; total := 0; out := [] |}) as (_ & Hr & _).
  destruct (process_files _ _) as [s|e s]; simpl in *.
  - unfold record_lines in *. rewrite lines_app. simpl in *. lia.
  - unfold record_lines in *. simpl in *. lia.
Qed.

(** The final line.  A run that reaches its end has printed one header line
    per listed file and then, as its last line and nowhere else, the total;
    a run cut by an exception has printed no total line at all, and at least
    one header line. *)
Theorem total_line_is_printed_last_or_never tree fs :
  match run tree fs with
  | Done s =>
      exists o,
        out s = o ++ [ETotal (total s)]
        /\ total_lines o = 0
        /\ file_lines o = List.length (listed tree data_dirs)
  | Aborted _ s =>
      total_lines (out s) = 0
      /\ 0 < file_lines (out s) <= List.length (listed tree data_dirs)
  end.
Proof.
  unfold run. rewrite process_dirs_listed.
  pose proof (process_files_lines (listed tree data_dirs)
                {| files := fs; total := 0; out := [] |}) as (Ht & _ & Hf & Hd).
  destruct (process_files _ _) as [s|e s] eqn:Hrun; simpl in *.
  - exists (out s). split; [done |]. split; [exact Ht |]. by rewrite (Hd s).
  - split; [exact Ht |]. split; [| exact Hf].
    destruct (process_files_aborted _ _ _ _ Hrun)
      as (before & q & after & s1 & _ & _ & _ & ->).
    simpl. unfold file_lines. rewrite lines_app. simpl. lia.
Qed.

Lemma process_file_dom yaml_file s :
  dom (files (state_of (process_file yaml_file s))) = dom (files s).
Proof.
  destruct (process_file_cases yaml_file s)
    as [-> | (raw & h & data & xs & Hraw & _ & ->)]; simpl; [done |].
  rewrite dom_insert_L. apply subseteq_union_1_L, singleton_subseteq_l.
  by eapply elem_of_dom_2.
Qed.

Lemma process_files_dom ps s :
  dom (files (state_of (process_files ps s))) = dom (files s).
Proof.
  revert s. induction ps as [|p ps IH]; intros s; simpl; [done |].
  pose proof (process_file_dom p s) as Hp.
  destruct (process_file p s) as [s0|e s0]; simpl in *; [| done].
  by rewrite IH.
Qed.

(** A run creates no file and removes none, whether it ends or is cut: the
    paths that hold a file afterwards are those that held one before. *)
Theorem run_keeps_the_set_of_files tree fs :
  dom (files (state_of (run tree fs))) = dom fs.
Proof.
  unfold run. rewrite process_dirs_listed.
  pose proof (process_files_dom (listed tree data_dirs)
                {| files := fs; total := 0; out := [] |}) as Hd.
  by destruct (process_files _ _).
Qed.

End RunOutput.

(** ** Across the directories *)

Section Directories.
Context `{Library}.
Implicit Types (s : state) (tree : dir_table) (fs : gmap string (list byte)).

(** Nothing to visit: when no data directory exists, or those that exist
    list no [*.yml] file, the run ends normally, leaves every file as it is
    and reports 0. *)
Theorem run_without_files_reports_zero tree fs :
  listed tree data_dirs = [] ->
  run tree fs = Done {| files := fs; total := 0; out := [ETotal 0] |}.
Proof. intros Hnone. unfold run. by rewrite process_dirs_listed, Hnone. Qed.

End Directories.

(** ** The further properties on concrete documents *)

Section MoreExamples.
Import Example Cases.
Existing Instance Example.library.

Lemma loop_store_ignores_order_and_repeats_witness :
  heap_of (update_programs [VRef 2; VRef 2; VRef 3] (shared, 0, []))
    = heap_of (update_programs [VRef 3; VRef 2] (shared, 5, [EFile a_yml])).
Proof.
  apply loop_store_ignores_order_and_repeats.
  intros x. rewrite !elem_of_cons, !elem_of_nil. tauto.
Defined.

Lemma date_is_appended_or_replaced_in_place_witness :
  heap_of (update_programs [VRef 2; VRef 3] (nameless, 0, [])) !! 3
    = Some (ODict [(SStr "name", str "Zeta");
                   (SStr "verified_date", VScalar (SStr today));
                   (SStr "city", str "Oakland")]).
Proof.
  destruct (date_is_appended_or_replaced_in_place [VRef 2; VRef 3] nameless 0 [] 3
              [(SStr "name", str "Zeta");
               (SStr "verified_date", str "2024-01-01");
               (SStr "city", str "Oakland")])
    as [_ Hreplace].
  - apply list_elem_of_In. right. left. reflexivity.
  - vm_compute. reflexivity.
  - apply (Hreplace [(SStr "name", str "Zeta")] (str "2024-01-01")
             [(SStr "city", str "Oakland")]); reflexivity.
Defined.

Lemma loop_keeps_keys_distinct_witness :
  exists d',
    heap_of (update_programs [VRef 2; VRef 3] (nameless, 0, [])) !! 2 = Some (ODict d')
    /\ NoDup (dict_keys d')
    /\ 1 <= List.length d' <= 2.
Proof.
  apply (loop_keeps_keys_distinct [VRef 2; VRef 3] nameless 0 [] 2
           [(SStr "id", VScalar (SInt 4%Z))]).
  - vm_compute. reflexivity.
  - apply NoDup_singleton.
Defined.

Lemma programs_not_a_list_updates_nothing_witness :
  update_programs (str_chars "none yet") (text_programs, 0, [])
    = (text_programs, 0, []).
Proof.
  apply (programs_not_a_list_updates_nothing text_programs 1
           [(SStr "title", str "Listing"); (SStr "programs", str "none yet")]
           (str "none yet") 0 []); vm_compute; reflexivity.
Defined.

Lemma run_without_files_reports_zero_witness :
  run ∅ two_files = Done {| files := two_files; total := 0; out := [ETotal 0] |}.
Proof. apply run_without_files_reports_zero. vm_compute. reflexivity. Defined.

End MoreExamples.

(** * Where the library decides *)

Section LibraryCases.


(** The two runs on that file. *)
Lemma ordered_map_runs :
  @run Omap.library Omap.tree Omap.disk
    = Done {| files := {[ Omap.omap_yml := Example.on_disk Omap.tuple_text ]};
              total := 0;
              out := [EFile Omap.omap_yml; ETotal 0] |}
  /\ @run Omap.library Omap.tree
       {[ Omap.omap_yml := Example.on_disk Omap.tuple_text ]}
     = Aborted YAMLError
         {| files := {[ Omap.omap_yml := Example.on_disk Omap.tuple_text ]};
            total := 0;
            out := [EFile Omap.omap_yml] |}.
Proof. split; vm_compute; reflexivity. Qed.


End LibraryCases.

(** * Links and refused writes *)

Section OnDisk.
Context `{Library}.
Implicit Types (h : heap) (s : state) (data : value) (xs : list value).
Implicit Types (fsys : file_system) (tree : dir_table).
Implicit Types (fs : gmap string (list byte)).

(** With every path its own file and every write granted, the visit is the
    one of the first part. *)
Lemma process_file_on_plain yaml_file s :
  process_file_on plain_files yaml_file s = process_file yaml_file s.
Proof.
  unfold process_file_on, process_file. simpl.
  destruct (files s !! yaml_file) as [raw|]; [| done].
  destruct (text_decode file_encoding raw) as [content|]; [| done].
  destruct (safe_load content) as [[h data]|]; [| done].
  destruct (truthy h data); simpl; [| done].
  by destruct (update_document h data _ _) as [[[h' t'] o']|].
Qed.





(** A visit changes no file other than the one its path leads to. *)
Lemma process_file_on_other fsys yaml_file f s :
  target fsys yaml_file <> Some f ->
  files (state_of (process_file_on fsys yaml_file s)) !! f = files s !! f.
Proof.
  intros Hne. unfold process_file_on. simpl.
  destruct (target fsys yaml_file) as [file|]; [| done].
  destruct (files s !! file) as [raw|]; [| done].
  destruct (text_decode file_encoding raw) as [content|]; [| done].
  destruct (safe_load content) as [[h data]|]; [| done].
  destruct (truthy h data); simpl; [| done].
  destruct (update_document h data _ _) as [[[h' t'] o']|]; [| done].
  destruct (can_write fsys file); simpl; [| done].
  rewrite lookup_insert_ne; [done | congruence].
Qed.

Lemma process_files_on_app fsys ps qs s :
  process_files_on fsys (ps ++ qs) s =
    match process_files_on fsys ps s with
    | Done s' => process_files_on fsys qs s'
    | Aborted e s' => Aborted e s'
    end.
Proof.
  revert s. induction ps as [|p ps IH]; intros s; simpl; [done |].
  destruct (process_file_on fsys p s); [apply IH | done].
Qed.

Lemma process_dirs_on_listed fsys tree dirs s :
  process_dirs_on fsys tree dirs s = process_files_on fsys (listed tree dirs) s.
Proof.
  revert s. induction dirs as [|d dirs IH]; intros s; simpl; [done |].
  rewrite process_files_on_app. unfold process_dir_on.
  destruct (tree !! d) as [ps|]; simpl; [| apply IH].
  destruct (process_files_on fsys ps s); [apply IH | done].
Qed.

Lemma process_files_on_other fsys ps f s :
  (forall q, q ∈ ps -> target fsys q <> Some f) ->
  files (state_of (process_files_on fsys ps s)) !! f = files s !! f.
Proof.
  revert s. induction ps as [|q ps IH]; intros s Hnot; simpl; [done |].
  pose proof (process_file_on_other fsys q f s
                (Hnot q (list_elem_of_here q ps))) as Hq.
  destruct (process_file_on fsys q s) as [s0|e s0]; simpl in *; [| done].
  rewrite IH; [done |]. intros q' Hq'. apply Hnot. by apply list_elem_of_further.
Qed.



(** A file that no listed path leads to, directly or through a link, has
    the same bytes after the run, whether the run ends or is cut. *)
Theorem files_no_listed_path_leads_to_are_untouched fsys tree fs f :
  (forall q, q ∈ listed tree data_dirs -> target fsys q <> Some f) ->
  files (state_of (run_on fsys tree fs)) !! f = fs !! f.
Proof.
  intros Hnot. unfold run_on. rewrite process_dirs_on_listed.
  pose proof (process_files_on_other fsys (listed tree data_dirs) f
                {| files := fs; total := 0; out := [] |} Hnot) as Hf.
  by destruct (process_files_on _ _ _).
Qed.

(** An exception in the first directory ends everything: when the pass over
    the files listed in [_data/programs] is cut, the run is cut there with
    the same exception and the same state, [_data/college-university] is
    never entered, and every file that no path listed in [_data/programs]
    leads to keeps its bytes. *)
Theorem failure_in_first_directory_ends_the_run fsys tree fs ps e s' :
  tree !! "_data/programs" = Some ps ->
  process_files_on fsys ps {| files := fs; total := 0; out := [] |} = Aborted e s' ->
  run_on fsys tree fs = Aborted e s'
  /\ forall f, (forall q, q ∈ ps -> target fsys q <> Some f) ->
               files s' !! f = fs !! f.
Proof.
  intros Hps Hab. split.
  - unfold run_on. rewrite process_dirs_on_listed. unfold listed, data_dirs. simpl.
    rewrite Hps. simpl. by rewrite process_files_on_app, Hab.
  - intros f Hnot.
    pose proof (process_files_on_other fsys ps f
                  {| files := fs; total := 0; out := [] |} Hnot) as Hf.
    by rewrite Hab in Hf.
Qed.

End OnDisk.

Section DiskExamples.
Import Example Cases Disks.
Existing Instance Example.library.



Lemma files_no_listed_path_leads_to_are_untouched_witness :
  files (state_of (run_on linked link_tree link_disk)) !! plain_yml
    = Some (on_disk plain_text).
Proof.
  rewrite (files_no_listed_path_leads_to_are_untouched linked link_tree link_disk
             plain_yml).
  - vm_compute. reflexivity.
  - intros q Hin. apply list_elem_of_In in Hin. vm_compute in Hin.
    destruct Hin as [<- | []]. vm_compute. discriminate.
Defined.

(** Through the link the run rewrites a file that no data directory lists. *)
Lemma linked_file_is_rewritten :
  run_on linked link_tree link_disk
    = Done {| files := {[ elsewhere_yml := on_disk alpha_beta_stamped_text;
                          plain_yml := on_disk plain_text ]};
              total := 2;
              out := [EFile link_yml; ERecord (str "Alpha");
                      ERecord (str "Beta"); ETotal 2] |}.
Proof. vm_compute. reflexivity. Qed.

Lemma failure_in_first_directory_ends_the_run_witness :
  exists s',
    run_on plain_files two_dir_tree three_files = Aborted TypeError s'
    /\ files s' !! a_yml = Some (on_disk alpha_beta_text).
Proof.
  destruct (failure_in_first_directory_ends_the_run plain_files two_dir_tree
              three_files [null_yml] TypeError
              (state_of (process_files_on plain_files [null_yml]
                           {| files := three_files; total := 0; out := [] |})))
    as [Hrun Hkeep].
  - vm_compute. reflexivity.
  - vm_compute. reflexivity.
  - eexists. split; [exact Hrun |]. rewrite Hkeep.
    + vm_compute. reflexivity.
    + intros q Hin. apply list_elem_of_In in Hin. vm_compute in Hin.
      destruct Hin as [<- | []]. vm_compute. discriminate.
Defined.

End DiskExamples.
